(** * uni-chain front end: the course list and the course cards

    A shallow embedding of [substrate-fe/src/Course.js] (the [Courses]
    component: two chained ledger subscriptions) and of the course-card
    module it imports as [./CourseCards] (the cards and their three action
    dialogs), with the properties of the specification stated over it.

    Conventions.
    - A JavaScript value is a [jsval].  Objects of the ledger client
      library (hashes, balances, account ids: everything the library hands
      out over the wire) are [JCodec] values, described by what their two
      methods [toJSON] and [toU8a] return.
    - A JavaScript expression that can throw is a computation in [result].
    - React state is a record that the handlers take and return. *)

From Stdlib Require Import ZArith String List.
From Stdlib.Strings Require Import Byte.
From stdpp Require Import base option list gmap strings.
Import ListNotations.

Local Open Scope string_scope.
Local Open Scope Z_scope.
Local Open Scope list_scope.

(** ** JavaScript values *)

Module Js.

(** What [toJSON] of a wire object yields: a JSON primitive. *)
Inductive plain : Type :=
| PNull
| PBool (b : bool)
| PNum (n : Z)
| PStr (s : string).

(** A wire object of the ledger client library, by its interface. *)
Record Codec : Type := MkCodec {
  toJSON : plain;
  toU8a : list byte;
}.

Inductive jsval : Type :=
| JUndefined
| JPlain (p : plain)
| JCodec (c : Codec)
| JFun (h : nat).                (* a function, named by a handle *)

Definition JNull : jsval := JPlain PNull.
Definition JNum (n : Z) : jsval := JPlain (PNum n).
Definition JStr (s : string) : jsval := JPlain (PStr s).

Inductive exn : Type :=
| TypeError (msg : string)
| Error (msg : string).

(** A computation that returns or throws. *)
Inductive result (A : Type) : Type :=
| Ok (a : A)
| Throw (e : exn).
Arguments Ok {A} a.
Arguments Throw {A} e.

#[export] Instance result_ret : MRet result := fun A a => Ok a.
#[export] Instance result_bind : MBind result := fun A B f m =>
  match m with
  | Ok a => f a
  | Throw e => Throw e
  end.

Definition returns {A} (m : result A) : bool :=
  match m with Ok _ => true | Throw _ => false end.

(** [ToBoolean]: the values that count as false in [!v], [v && e], [v || e]. *)
Definition truthy (v : jsval) : bool :=
  match v with
  | JUndefined => false
  | JPlain PNull => false
  | JPlain (PBool b) => b
  | JPlain (PNum n) => negb (n =? 0)
  | JPlain (PStr s) => negb (String.eqb s "")
  | JCodec _ => true
  | JFun _ => true
  end.

(** [v === s] for a string [s]: no coercion, so only the same string. *)
Definition strict_eq_str (v : jsval) (s : string) : bool :=
  match v with
  | JPlain (PStr t) => String.eqb t s
  | _ => false
  end.

(** [typeof v === 'function'] *)
Definition is_function (v : jsval) : bool :=
  match v with JFun _ => true | _ => false end.

(** [v.toJSON()]: only wire objects have the method. *)
Definition call_toJSON (v : jsval) : result jsval :=
  match v with
  | JCodec c => Ok (JPlain (toJSON c))
  | JUndefined | JPlain PNull =>
      Throw (TypeError "Cannot read properties of undefined or null (reading 'toJSON')")
  | _ => Throw (TypeError "toJSON is not a function")
  end.

(** [v.toU8a()] *)
Definition call_toU8a (v : jsval) : result (list byte) :=
  match v with
  | JCodec c => Ok (toU8a c)
  | JUndefined | JPlain PNull =>
      Throw (TypeError "Cannot read properties of undefined or null (reading 'toU8a')")
  | _ => Throw (TypeError "toU8a is not a function")
  end.

(** [f()] for an unsubscribe handle: the handles invoked, or a throw. *)
Definition call (v : jsval) : result (list nat) :=
  match v with
  | JFun h => Ok [h]
  | _ => Throw (TypeError "unsub is not a function")
  end.

(** The function that [v()] runs when [v] is a function. *)
Definition callee (v : jsval) : list nat :=
  match v with JFun h => [h] | _ => [] end.

(** [const { x = null } = o]: the default replaces [undefined] only. *)
Definition or_null (v : jsval) : jsval :=
  match v with JUndefined => JNull | _ => v end.

(** [a || b] *)
Definition js_or (a b : jsval) : jsval := if truthy a then a else b.

Definition is_codec (v : jsval) : bool :=
  match v with JCodec _ => true | _ => false end.

(** The library's [Option] wrapper: [unwrap()] throws on [None]. *)
Definition unwrap {A} (o : option A) : result A :=
  match o with
  | Some a => Ok a
  | None => Throw (Error "Option: unwrapping a None value")
  end.

End Js.
Import Js.

(** ** Course.js *)

(** A course object: the four fields that [parseCourse] destructures and
    that [CourseCard] reads.  A field the object lacks is [JUndefined]. *)
Record Course : Type := MkCourse {
  dna : jsval;
  price : jsval;
  course_year : jsval;
  owner : jsval;
}.

(** [parseCourse]: the object literal evaluates its fields in order. *)
Definition parseCourse (c : Course) : result Course :=
  p ← call_toJSON (price c);
  y ← call_toJSON (course_year c);
  o ← call_toJSON (owner c);
  mret {| dna := dna c; price := p; course_year := y; owner := o |}.

(** The three [useState] cells of [Courses]. *)
Record State : Type := MkState {
  courseIds : list jsval;
  courses : list Course;
  status : string;
}.

Definition initialState : State :=
  {| courseIds := []; courses := []; status := "" |}.

Definition setCourseIds (ids : list jsval) (st : State) : State :=
  {| courseIds := ids; courses := courses st; status := status st |}.

Definition setCourses (cs : list Course) (st : State) : State :=
  {| courseIds := courseIds st; courses := cs; status := status st |}.

Definition setStatus (s : string) (st : State) : State :=
  {| courseIds := courseIds st; courses := courses st; status := s |}.

(** An entry of [courses.entries()]: the storage key and the wrapped record. *)
Definition Entry : Type := (list byte * option Course)%type.

(** The callback of [countForCourses] in [subscribeCount], from the point
    where the awaited [entries()] has resolved to [entries]. *)
Definition onCount (count : Z) (entries : list Entry) (st : State) : result State :=
  ids ← mapM (fun entry : Entry => c ← unwrap (snd entry); mret (dna c)) entries;
  mret (setCourseIds ids st).

(** The callback of [courses.multi] in [subscribeCourses]. *)
Definition onCourses (pushed : list (option Course)) (st : State) : result State :=
  coursesMap ← mapM (fun course => c ← unwrap course; parseCourse c) pushed;
  mret (setCourses coursesMap st).

(** What is there after a handler ran from [a]: a throw leaves [a]. *)
Definition settle {A} (a : A) (r : result A) : A :=
  match r with Ok a' => a' | Throw _ => a end.

(** ** The two effects of [Courses] and what surrounds their callbacks *)

(** How an awaited promise settles. *)
Inductive settled (A : Type) : Type :=
| Fulfilled (a : A)
| Rejected (e : exn).
Arguments Fulfilled {A} a.
Arguments Rejected {A} e.

(** [await p] inside an [async] function. *)
Definition await {A} (p : settled A) : result A :=
  match p with
  | Fulfilled a => Ok a
  | Rejected e => Throw e
  end.

(** A request made on [api.query.courseGrading]. *)
Inductive Request : Type :=
| CountForCourses
| CoursesEntries
| CoursesMulti (keys : list jsval).

(** What one mounted [Courses] has done so far. *)
Record Runtime : Type := MkRuntime {
  state : State;              (* the [useState] cells *)
  requests : list Request;    (* requests issued, oldest first *)
  released : list nat;        (* unsubscribe handles invoked, oldest first *)
  unhandled : list exn;       (* rejections of promises nobody awaits *)
}.

Definition mounted : Runtime :=
  {| state := initialState; requests := []; released := []; unhandled := [] |}.

Definition with_state (st : State) (rt : Runtime) : Runtime :=
  {| state := st; requests := requests rt;
     released := released rt; unhandled := unhandled rt |}.

Definition request (q : Request) (rt : Runtime) : Runtime :=
  {| state := state rt; requests := requests rt ++ [q];
     released := released rt; unhandled := unhandled rt |}.

Definition release (hs : list nat) (rt : Runtime) : Runtime :=
  {| state := state rt; requests := requests rt;
     released := released rt ++ hs; unhandled := unhandled rt |}.

Definition reject (e : exn) (rt : Runtime) : Runtime :=
  {| state := state rt; requests := requests rt;
     released := released rt; unhandled := unhandled rt ++ [e] |}.

(** The closure of one run of an effect: its variable [unsub]. *)
Record Closure : Type := MkClosure { unsub : jsval }.

(** [subscribeCount], up to its [return]: [let unsub = null], then
    [asyncFetch()] issues the request and suspends at its [await]. *)
Definition subscribeCount (rt : Runtime) : Closure * Runtime :=
  ({| unsub := JNull |}, request CountForCourses rt).

(** [asyncFetch] of [subscribeCount] resumed: [unsub = await ...].  The call
    [asyncFetch()] is not awaited and has no [catch]. *)
Definition subscribeCount_resume (opened : settled jsval)
    (cl : Closure) (rt : Runtime) : Closure * Runtime :=
  match await opened with
  | Ok h => ({| unsub := h |}, rt)
  | Throw e => (cl, reject e rt)
  end.

(** The function [subscribeCount] returns: [unsub && unsub()]. *)
Definition subscribeCount_cleanup (cl : Closure) (rt : Runtime) : result Runtime :=
  if truthy (unsub cl)
  then hs ← call (unsub cl); mret (release hs rt)
  else mret rt.

(** One push of the count: the [async] callback requests the entries, and
    resumes with how that request settled. *)
Definition countForCourses_push (count : Z) (entries : settled (list Entry))
    (rt : Runtime) : Runtime :=
  let rt := request CoursesEntries rt in
  match es ← await entries; onCount count es (state rt) with
  | Ok st => with_state st rt
  | Throw e => reject e rt
  end.

(** [subscribeCourses], up to its [return]. *)
Definition subscribeCourses (rt : Runtime) : Closure * Runtime :=
  ({| unsub := JNull |}, request (CoursesMulti (courseIds (state rt))) rt).

Definition subscribeCourses_resume (opened : settled jsval)
    (cl : Closure) (rt : Runtime) : Closure * Runtime :=
  match await opened with
  | Ok h => ({| unsub := h |}, rt)
  | Throw e => (cl, reject e rt)
  end.

Definition subscribeCourses_cleanup (cl : Closure) (rt : Runtime) : result Runtime :=
  if truthy (unsub cl)
  then hs ← call (unsub cl); mret (release hs rt)
  else mret rt.

(** One push of the records: the callback is synchronous, so what it
    throws goes back into the caller and the cells keep their values. *)
Definition courses_push (pushed : list (option Course)) (rt : Runtime) : result Runtime :=
  st ← onCourses pushed (state rt);
  mret (with_state st rt).

(** A run of count pushes, each with the entries its own query resolved to. *)
Definition count_pushes (ps : list (Z * settled (list Entry))) (rt : Runtime) : Runtime :=
  fold_left (fun rt p => countForCourses_push (fst p) (snd p) rt) ps rt.

(** Modelled from the spec: what the multi-key subscription of the ledger
    client library pushes, a primitive outside this repository.  Section 6:
    the callback "delivers, per push, a sequence of wrapped-optional-records
    aligned positionally with `keys`". *)
Definition multi (ledger : jsval -> option Course) (keys : list jsval) : list (option Course) :=
  map ledger keys.

(** ** The course cards *)

(** The [attrs] prop of a [TxButton]: the call descriptor. *)
Record Attrs : Type := MkAttrs {
  palletRpc : string;
  callable : string;
  inputParams : list jsval;
  paramFields : list bool;
}.

(** The state of a dialog component: [open] and the object [formValue]. *)
Record Dialog : Type := MkDialog {
  open : bool;
  formValue : gmap string jsval;
}.

Definition closed_dialog : Dialog := {| open := false; formValue := ∅ |}.

Definition setOpen (b : bool) (d : Dialog) : Dialog :=
  {| open := b; formValue := formValue d |}.

(** [o.k]: a property the object lacks reads as [undefined]. *)
Definition prop (o : gmap string jsval) (k : string) : jsval :=
  default JUndefined (o !! k).

(** The trigger buttons a card can show. *)
Inductive Button : Type :=
| SetPriceButton
| TransferButton
| BuyCourseButton.

Module TransferModal.

(** [formChange(key)(ev, el)]: [{ ...formValue, [key]: el.value }] *)
Definition formChange (key : string) (value : string) (d : Dialog) : Dialog :=
  {| open := open d; formValue := <[key := JStr value]> (formValue d) |}.

(** [confirmAndClose(unsub)]: the dialog after it, and the handles invoked. *)
Definition confirmAndClose (unsub : jsval) (d : Dialog) : Dialog * list nat :=
  let d := setOpen false d in
  if truthy unsub && is_function unsub then (d, callee unsub) else (d, []).

Definition attrs (course : Course) (d : Dialog) : Attrs :=
  {| palletRpc := "courseGrading";
     callable := "transfer";
     inputParams := [prop (formValue d) "target"; dna course];
     paramFields := [true; true] |}.

Definition render (course : Course) : list Button := [TransferButton].

End TransferModal.

Module SetPrice.

Definition formChange (key : string) (value : string) (d : Dialog) : Dialog :=
  {| open := open d; formValue := <[key := JStr value]> (formValue d) |}.

Definition confirmAndClose (unsub : jsval) (d : Dialog) : Dialog * list nat :=
  let d := setOpen false d in
  if truthy unsub && is_function unsub then (d, callee unsub) else (d, []).

Definition attrs (course : Course) (d : Dialog) : Attrs :=
  {| palletRpc := "courseGrading";
     callable := "setPrice";
     inputParams := [dna course; prop (formValue d) "target"];
     paramFields := [true; true] |}.

Definition render (course : Course) : list Button := [SetPriceButton].

End SetPrice.

Module BuyCourse.

Definition confirmAndClose (unsub : jsval) (d : Dialog) : Dialog * list nat :=
  let d := setOpen false d in
  if truthy unsub && is_function unsub then (d, callee unsub) else (d, []).

Definition attrs (course : Course) (d : Dialog) : Attrs :=
  {| palletRpc := "courseGrading";
     callable := "buyCourse";
     inputParams := [dna course; price course];
     paramFields := [true; true] |}.

(** [if (!course.price) return <></>] *)
Definition render (course : Course) : list Button :=
  if negb (truthy (price course)) then [] else [BuyCourseButton].

End BuyCourse.

(** What [CourseCard] puts on the screen. *)
Record Card : Type := MkCard {
  mine : bool;                (* the floating label "Mine" *)
  avatar : list byte;         (* the [dna] prop of [CourseAvatar] *)
  displayDna : jsval;
  yearText : jsval;
  ownerText : jsval;
  priceText : jsval;
  actions : list Button;
}.

(** [CourseCard].  [address] is [currentAccount.address], the address
    string of the selected keyring pair. *)
Definition CourseCard (address : string) (course : Course) : result Card :=
  let dna' := or_null (dna course) in
  let owner' := or_null (owner course) in
  let course_year' := or_null (course_year course) in
  let price' := or_null (price course) in
  displayDna ← (if truthy dna' then call_toJSON dna' else mret dna');
  let isSelf := strict_eq_str (owner course) address in
  u8a ← call_toU8a dna';
  mret {| mine := isSelf;
          avatar := u8a;
          displayDna := displayDna;
          yearText := course_year';
          ownerText := owner';
          priceText := js_or price' (JStr "Not For Sale");
          actions :=
            if strict_eq_str owner' address
            then SetPrice.render course ++ TransferModal.render course
            else BuyCourse.render course |}.

(** What [CourseCards] shows: the placeholder, or the grid of cards. *)
Inductive View : Type :=
| MintCourses
| Grid (cards : list Card).

Definition CourseCards (address : string) (cs : list Course) : result View :=
  if (length cs =? 0)%nat then mret MintCourses
  else cards ← mapM (CourseCard address) cs; mret (Grid cards).

(** ** The transaction button *)

(** The page around one dialog: what has been handed to the submission
    primitive, the status line, and the watches released. *)
Record Page : Type := MkPage {
  dialog : Dialog;
  submitted : list Attrs;
  uiStatus : string;
  stopped : list nat;
}.

(** An input counts as empty when nothing was typed or the text is empty. *)
Definition empty_input (v : jsval) : bool :=
  match v with
  | JUndefined => true
  | JPlain PNull => true
  | JPlain (PStr s) => String.eqb s ""
  | _ => false
  end.

(** Modelled from the spec: the click of [TxButton], a component of
    [./substrate-lib/components] whose source is not at hand, and the
    submission primitive behind it.  Section 4.2: on confirm the dialog
    "submits a structured call descriptor {target module, operation name,
    ordered parameter list, parameter-kind flags} to the
    transaction-submission primitive, then closes its dialog regardless of
    outcome", and no validation is performed "beyond requiring non-empty
    input".  Section 6: the status callback "is invoked multiple times
    across the transaction lifecycle with human-readable status text, and
    may invoke a completion callback with an unsubscribe handle"; section 3:
    the status is "overwritten (never appended)".  [lifecycle] is the status
    texts of this transaction, [watch] the handle given to [onClick]. *)
Definition TxButton_click (attrs : Attrs)
    (onClick : jsval -> Dialog -> Dialog * list nat)
    (watch : jsval) (lifecycle : list string) (pg : Page) : Page :=
  if existsb empty_input (inputParams attrs) then pg
  else
    let '(d, hs) := onClick watch (dialog pg) in
    {| dialog := d;
       submitted := submitted pg ++ [attrs];
       uiStatus := List.last lifecycle (uiStatus pg);
       stopped := stopped pg ++ hs |}.

(** The confirm button of each dialog, as its JSX wires it. *)
Definition TransferModal_confirm (course : Course)
    (watch : jsval) (lifecycle : list string) (pg : Page) : Page :=
  TxButton_click (TransferModal.attrs course (dialog pg))
    TransferModal.confirmAndClose watch lifecycle pg.

Definition SetPrice_confirm (course : Course)
    (watch : jsval) (lifecycle : list string) (pg : Page) : Page :=
  TxButton_click (SetPrice.attrs course (dialog pg))
    SetPrice.confirmAndClose watch lifecycle pg.

Definition BuyCourse_confirm (course : Course)
    (watch : jsval) (lifecycle : list string) (pg : Page) : Page :=
  TxButton_click (BuyCourse.attrs course (dialog pg))
    BuyCourse.confirmAndClose watch lifecycle pg.

(** ** Sample data *)

Module Sample.

Definition hash (hex : string) (bytes : list byte) : jsval :=
  JCodec {| toJSON := PStr hex; toU8a := bytes |}.

Definition number (n : Z) (bytes : list byte) : jsval :=
  JCodec {| toJSON := PNum n; toU8a := bytes |}.

Definition account (ss58 : string) : jsval :=
  JCodec {| toJSON := PStr ss58; toU8a := [] |}.

Definition dna1 : jsval := hash "0x01" [x01].
Definition dna2 : jsval := hash "0x02" [x02].

(** A record as the ledger delivers it. *)
Definition raw1 : Course :=
  {| dna := dna1; price := number 5 [x05];
     course_year := number 2024 [xe8; x07]; owner := account "5Alice" |}.

(** The same record after [parseCourse]. *)
Definition course1 : Course :=
  {| dna := dna1; price := JNum 5; course_year := JNum 2024; owner := JStr "5Alice" |}.

(** A ledger that holds [raw1] under [dna1] and nothing else. *)
Definition ledger1 (key : jsval) : option Course :=
  match key with
  | JCodec c =>
      match toU8a c with
      | [x01] => Some raw1
      | _ => None
      end
  | _ => None
  end.

End Sample.

(** ** Notions used in the statements *)

(** The records whose three normalised fields are wire objects. *)
Definition wire (c : Course) : bool :=
  is_codec (price c) && is_codec (course_year c) && is_codec (owner c).

(** The plain value of a wire object, and any other value as it is. *)
Definition plain_of (v : jsval) : jsval :=
  match v with JCodec c => JPlain (toJSON c) | _ => v end.

(** What [parseCourse] returns on a wire record. *)
Definition parsed (c : Course) : Course :=
  {| dna := dna c; price := plain_of (price c);
     course_year := plain_of (course_year c); owner := plain_of (owner c) |}.

(** An enumeration in which every entry wraps a record. *)
Definition present (found : list (list byte * Course)) : list Entry :=
  map (fun kc => (fst kc, Some (snd kc))) found.

(** The keys whose record the ledger lacks. *)
Definition absent (ledger : jsval -> option Course) (keys : list jsval) : list jsval :=
  List.filter (fun k => match ledger k with None => true | Some _ => false end) keys.

(** The records the ledger holds for [keys], in the order of the keys. *)
Definition stored (ledger : jsval -> option Course) (keys : list jsval) : list Course :=
  flat_map (fun k => match ledger k with Some c => [c] | None => [] end) keys.

(** Every identifier has a record on the ledger, in wire form. *)
Definition resolvable (ledger : jsval -> option Course) (ids : list jsval) : Prop :=
  forall id, In id ids -> exists c, ledger id = Some c /\ wire c = true.

(** The record under an identifier carries that identifier. *)
Definition keyed_by_dna (ledger : jsval -> option Course) (ids : list jsval) : Prop :=
  forall id c, In id ids -> ledger id = Some c -> dna c = id.

(** The page after the user acted on its dialog. *)
Definition with_dialog (d : Dialog) (pg : Page) : Page :=
  {| dialog := d; submitted := submitted pg;
     uiStatus := uiStatus pg; stopped := stopped pg |}.

(** A page whose dialog has just been opened. *)
Definition opened_page : Page :=
  {| dialog := setOpen true closed_dialog; submitted := [];
     uiStatus := ""; stopped := [] |}.

(** ** What [Courses] returns *)

(** The tree [Courses] renders: the cards, the descriptor of the Create
    Course button and the status line under it. *)
Record CoursesView : Type := MkCoursesView {
  cards : View;
  createCourse : Attrs;
  statusLine : string;
}.

(** The [return] of [Courses], with the cards of [CourseCards] rendered
    for the account [address]. *)
Definition Courses (address : string) (st : State) : result CoursesView :=
  v ← CourseCards address (courses st);
  mret {| cards := v;
          createCourse :=
            {| palletRpc := "courseGrading"; callable := "createCourse";
               inputParams := []; paramFields := [] |};
          statusLine := status st |}.

(** The records an enumeration found are on the ledger under their [dna],
    in wire form. *)
Definition on_ledger (ledger : jsval -> option Course)
    (found : list (list byte * Course)) : Prop :=
  forall kc, In kc found ->
    wire (snd kc) = true /\ is_codec (dna (snd kc)) = true /\
    ledger (dna (snd kc)) = Some (snd kc).

(** ** Lemmas on [mapM] in [result] *)

Section MapM.
Context {A B : Type}.
Implicit Types (f : A -> result B) (g : A -> B) (l : list A).

Lemma mapM_result_map f g l :
  (forall x, In x l -> f x = Ok (g x)) -> mapM f l = Ok (map g l).
Proof.
  induction l as [|x l IH]; intros Hf; [reflexivity|].
  cbn. rewrite (Hf x) by (left; reflexivity). cbn.
  rewrite IH by (intros y Hy; apply Hf; right; exact Hy).
  reflexivity.
Qed.

Lemma mapM_result_throw f l x :
  In x l -> returns (f x) = false -> returns (mapM f l) = false.
Proof.
  induction l as [|y l IH]; intros Hin Hx; [destruct Hin|].
  cbn. destruct (f y) as [b|e] eqn:Hy; cbn; [|reflexivity].
  destruct Hin as [->|Hin]; [rewrite Hy in Hx; discriminate|].
  specialize (IH Hin Hx).
  destruct (mapM f l); [discriminate|reflexivity].
Qed.

Lemma mapM_result_length f l r :
  mapM f l = Ok r -> length r = length l.
Proof.
  revert r. induction l as [|x l IH]; intros r; cbn.
  - intros [= <-]. reflexivity.
  - destruct (f x); cbn; [|discriminate].
    destruct (mapM f l); cbn; [|discriminate].
    intros [= <-]. cbn. f_equal. apply IH. reflexivity.
Qed.

End MapM.

(** ** parseCourse *)

Lemma parseCourse_wire c : wire c = true -> parseCourse c = Ok (parsed c).
Proof.
  destruct c as [d p y o]. unfold wire; cbn.
  destruct p, y, o; cbn; try discriminate. reflexivity.
Qed.

Lemma parsed_dna c : dna (parsed c) = dna c.
Proof. reflexivity. Qed.

Lemma unwrap_parse_present (c : Course) :
  wire c = true -> (c' ← unwrap (Some c); parseCourse c') = Ok (parsed c).
Proof. intros H. cbn. apply parseCourse_wire, H. Qed.

(** ** The record-resolution push *)

Lemma onCourses_present (raws : list Course) (st : State) :
  forallb wire raws = true ->
  onCourses (map Some raws) st = Ok (setCourses (map parsed raws) st).
Proof.
  intros Hw. unfold onCourses.
  rewrite (mapM_result_map _ (fun o => match o with Some c => parsed c | None => Sample.raw1 end)).
  - cbn. rewrite map_map. reflexivity.
  - intros o Ho. apply in_map_iff in Ho as (c & <- & Hc).
    apply unwrap_parse_present.
    rewrite forallb_forall in Hw. apply Hw, Hc.
Qed.

Lemma onCourses_absent (pushed : list (option Course)) (st : State) :
  In None pushed -> returns (onCourses pushed st) = false.
Proof.
  intros Hin. unfold onCourses.
  pose proof (mapM_result_throw
    (fun course : option Course => c ← unwrap course; parseCourse c)
    pushed None Hin eq_refl) as H.
  destruct (mapM _ pushed); [discriminate|reflexivity].
Qed.

(** C1, as the code has it: a resolution push whose records are all present
    (with wire-typed price, course_year and owner) is handled without a
    throw and makes CourseRecords the parsed records, one per pushed record
    and in push order; a push that holds an absent record makes the handler
    throw at [unwrap], so nothing is excluded and CourseRecords stays as it
    was. *)
Theorem courses_push_present_or_throws :
  forall (pushed : list (option Course)) (rt : Runtime),
    (forall raws, pushed = map Some raws -> forallb wire raws = true ->
       courses_push pushed rt
       = Ok (with_state (setCourses (map parsed raws) (state rt)) rt)) /\
    (In None pushed ->
       returns (courses_push pushed rt) = false /\
       settle rt (courses_push pushed rt) = rt).
Proof.
  intros pushed rt. split.
  - intros raws -> Hw. unfold courses_push.
    rewrite onCourses_present by exact Hw. reflexivity.
  - intros Hin. unfold courses_push.
    pose proof (onCourses_absent pushed (state rt) Hin) as H.
    destruct (onCourses pushed (state rt)); [discriminate|].
    split; reflexivity.
Qed.

Lemma courses_push_present_or_throws_witness :
  courses_push [Some Sample.raw1] mounted
  = Ok (with_state (setCourses [Sample.course1] initialState) mounted) /\
  returns (courses_push [Some Sample.raw1; None] mounted) = false /\
  settle mounted (courses_push [Some Sample.raw1; None] mounted) = mounted.
Proof.
  split.
  - apply (proj1 (courses_push_present_or_throws [Some Sample.raw1] mounted)
             [Sample.raw1]); reflexivity.
  - apply (proj2 (courses_push_present_or_throws [Some Sample.raw1; None] mounted)).
    simpl. right. left. reflexivity.
Defined.

(** C1 as the specification words it fails: with [dna2] no longer on the
    ledger, the push over [dna1; dna2] is not turned into the records
    without [dna2]; the handler throws. *)
Lemma courses_push_missing_throws :
  courses_push (multi Sample.ledger1 [Sample.dna1; Sample.dna2]) mounted
  = Throw (Error "Option: unwrapping a None value") /\
  ~ (exists rt', courses_push (multi Sample.ledger1 [Sample.dna1; Sample.dna2]) mounted
                 = Ok rt').
Proof.
  split; [reflexivity|]. intros [rt' H]. discriminate H.
Qed.

Section Resolution.
Variable ledger : jsval -> option Course.

Lemma resolvable_cons id ids :
  resolvable ledger (id :: ids) ->
  (exists c, ledger id = Some c /\ wire c = true) /\ resolvable ledger ids.
Proof.
  intros H. split; [apply H; left; reflexivity|].
  intros k Hk. apply H. right. exact Hk.
Qed.

Lemma multi_resolvable ids :
  resolvable ledger ids -> multi ledger ids = map Some (stored ledger ids).
Proof.
  induction ids as [|id ids IH]; intros H; [reflexivity|].
  apply resolvable_cons in H as [(c & Hc & _) Hr].
  cbn. rewrite Hc. cbn. f_equal. apply IH, Hr.
Qed.

Lemma stored_wire ids :
  resolvable ledger ids -> forallb wire (stored ledger ids) = true.
Proof.
  induction ids as [|id ids IH]; intros H; [reflexivity|].
  apply resolvable_cons in H as [(c & Hc & Hw) Hr].
  cbn. rewrite Hc. cbn. rewrite Hw. apply IH, Hr.
Qed.

Lemma stored_length ids :
  resolvable ledger ids -> length (stored ledger ids) = length ids.
Proof.
  induction ids as [|id ids IH]; intros H; [reflexivity|].
  apply resolvable_cons in H as [(c & Hc & _) Hr].
  cbn. rewrite Hc. cbn. f_equal. apply IH, Hr.
Qed.

Lemma stored_dna ids :
  resolvable ledger ids -> keyed_by_dna ledger ids -> map dna (stored ledger ids) = ids.
Proof.
  induction ids as [|id ids IH]; intros H Hk; [reflexivity|].
  apply resolvable_cons in H as [(c & Hc & _) Hr].
  cbn. rewrite Hc. cbn. f_equal.
  - apply Hk; [left; reflexivity|exact Hc].
  - apply IH; [exact Hr|]. intros k c' Hin. apply Hk. right. exact Hin.
Qed.

(** C8, as the code has it, for a subscription opened with the current
    CourseIdSet [ids] (the effect asks for exactly these identifiers).
    When every identifier has its record on the ledger, with price,
    course_year and owner in wire form, a resolution push replaces
    CourseRecords by one parsed record per identifier, in the order of the
    identifiers: its size is the size of the identifier set, and it repeats
    an entry only where the identifier set repeats an identifier (records
    carrying their identifier as [dna]).  The push leaves the CourseIdSet as
    it was, and re-subscribing with this identical set asks for the same
    identifiers and leaves CourseRecords unchanged.  When the record of some
    identifier is missing, the handler throws and CourseRecords keeps its
    previous value. *)
Theorem courses_push_one_per_id :
  forall (ids : list jsval) (rt : Runtime),
    courseIds (state rt) = ids ->
    requests (snd (subscribeCourses rt)) = requests rt ++ [CoursesMulti ids] /\
    (resolvable ledger ids ->
     exists rt',
       courses_push (multi ledger ids) (snd (subscribeCourses rt)) = Ok rt' /\
       courses (state rt') = map parsed (stored ledger ids) /\
       length (courses (state rt')) = length ids /\
       (keyed_by_dna ledger ids -> map dna (courses (state rt')) = ids) /\
       (keyed_by_dna ledger ids -> List.NoDup ids -> List.NoDup (courses (state rt'))) /\
       courseIds (state rt') = ids /\
       requests (snd (subscribeCourses rt')) = requests rt' ++ [CoursesMulti ids] /\
       (exists rt'',
          courses_push (multi ledger (courseIds (state rt')))
            (snd (subscribeCourses rt')) = Ok rt'' /\
          courses (state rt'') = courses (state rt') /\
          courseIds (state rt'') = ids)) /\
    (forall id, In id ids -> ledger id = None ->
       returns (courses_push (multi ledger ids) (snd (subscribeCourses rt))) = false /\
       courses (state (settle (snd (subscribeCourses rt))
                  (courses_push (multi ledger ids) (snd (subscribeCourses rt)))))
       = courses (state rt)).
Proof.
  intros ids rt Hids. split; [|split].
  - cbn. rewrite Hids. reflexivity.
  - intros Hres.
    pose proof (multi_resolvable ids Hres) as Hm.
    pose proof (stored_wire ids Hres) as Hw.
    assert (Hpush : forall r, courses_push (multi ledger ids) r
              = Ok (with_state (setCourses (map parsed (stored ledger ids)) (state r)) r)).
    { intros r. unfold courses_push. rewrite Hm, onCourses_present by exact Hw.
      reflexivity. }
    assert (Hdna : keyed_by_dna ledger ids -> map dna (map parsed (stored ledger ids)) = ids).
    { intros Hk. rewrite map_map. cbn. apply stored_dna; assumption. }
    exists (with_state (setCourses (map parsed (stored ledger ids))
                          (state (snd (subscribeCourses rt))))
              (snd (subscribeCourses rt))).
    split; [apply Hpush|].
    cbn [state with_state courses courseIds setCourses subscribeCourses snd request].
    split; [reflexivity|].
    split; [rewrite length_map; apply stored_length, Hres|].
    split; [exact Hdna|].
    split.
    { intros Hk Hnd. apply (NoDup_map_inv dna). rewrite Hdna by exact Hk. exact Hnd. }
    split; [exact Hids|].
    split; [rewrite Hids; reflexivity|].
    rewrite Hids. eexists. split; [apply Hpush|].
    cbn [state with_state courses courseIds setCourses subscribeCourses snd request].
    split; [reflexivity|exact Hids].
  - intros id Hin Hnone.
    assert (Hmiss : In None (multi ledger ids)).
    { unfold multi. apply in_map_iff. exists id. split; assumption. }
    unfold courses_push.
    pose proof (onCourses_absent (multi ledger ids)
                  (state (snd (subscribeCourses rt))) Hmiss) as Hthrow.
    destruct (onCourses (multi ledger ids) (state (snd (subscribeCourses rt))));
      [discriminate|].
    split; reflexivity.
Qed.

End Resolution.

Lemma courses_push_one_per_id_witness :
  (exists rt',
     courses_push (multi Sample.ledger1 [Sample.dna1])
       (snd (subscribeCourses
               (with_state (setCourseIds [Sample.dna1] initialState) mounted)))
     = Ok rt' /\
     courses (state rt') = [Sample.course1] /\
     length (courses (state rt')) = 1%nat) /\
  (returns (courses_push (multi Sample.ledger1 [Sample.dna1; Sample.dna2])
              (snd (subscribeCourses
                      (with_state (setCourseIds [Sample.dna1; Sample.dna2] initialState)
                         mounted)))) = false /\
   courses (state (settle
              (snd (subscribeCourses
                      (with_state (setCourseIds [Sample.dna1; Sample.dna2] initialState)
                         mounted)))
              (courses_push (multi Sample.ledger1 [Sample.dna1; Sample.dna2])
                 (snd (subscribeCourses
                         (with_state (setCourseIds [Sample.dna1; Sample.dna2] initialState)
                            mounted))))))
   = []).
Proof.
  split.
  - assert (Hres : resolvable Sample.ledger1 [Sample.dna1]).
    { intros id [<-|[]]. exists Sample.raw1. split; reflexivity. }
    destruct (proj1 (proj2 (courses_push_one_per_id Sample.ledger1 [Sample.dna1]
                (with_state (setCourseIds [Sample.dna1] initialState) mounted) eq_refl))
                Hres)
      as (rt' & Hpush & Hcs & Hlen & _).
    exists rt'. repeat split; assumption.
  - apply (proj2 (proj2 (courses_push_one_per_id Sample.ledger1
                [Sample.dna1; Sample.dna2]
                (with_state (setCourseIds [Sample.dna1; Sample.dna2] initialState) mounted)
                eq_refl)) Sample.dna2); [right; left; reflexivity|reflexivity].
Defined.

(** C8 as the specification words it fails: with [dna2] missing, the push
    over [dna1; dna2] does not leave one record (two identifiers minus one
    missing); the handler throws and CourseRecords keeps its former, here
    empty, value.  This is so for the push alone and for the push into a
    subscription opened with the CourseIdSet [dna1; dna2]. *)
Lemma courses_push_missing_size :
  length (absent Sample.ledger1 [Sample.dna1; Sample.dna2]) = 1%nat /\
  length (courses (state (settle mounted
            (courses_push (multi Sample.ledger1 [Sample.dna1; Sample.dna2]) mounted))))
  <> (length [Sample.dna1; Sample.dna2]
      - length (absent Sample.ledger1 [Sample.dna1; Sample.dna2]))%nat /\
  length (courses (state (settle
            (snd (subscribeCourses
                    (with_state (setCourseIds [Sample.dna1; Sample.dna2] initialState)
                       mounted)))
            (courses_push (multi Sample.ledger1 [Sample.dna1; Sample.dna2])
               (snd (subscribeCourses
                       (with_state (setCourseIds [Sample.dna1; Sample.dna2] initialState)
                          mounted)))))))
  <> (length [Sample.dna1; Sample.dna2]
      - length (absent Sample.ledger1 [Sample.dna1; Sample.dna2]))%nat.
Proof.
  split; [reflexivity|]. split; cbn; discriminate.
Qed.

(** ** The count push *)

Lemma onCount_present (count : Z) (found : list (list byte * Course)) (st : State) :
  onCount count (present found) st
  = Ok (setCourseIds (map (fun kc => dna (snd kc)) found) st).
Proof.
  unfold onCount, present.
  rewrite (mapM_result_map _
    (fun e : Entry => match snd e with Some c => dna c | None => JUndefined end)).
  - cbn. rewrite map_map. reflexivity.
  - intros e He. apply in_map_iff in He as (kc & <- & _). reflexivity.
Qed.

(** C2: whatever count pushes came before, and whatever their queries
    returned, after the handling of a push the stored CourseIdSet is
    exactly the identifiers of the entries that the enumeration query of
    that push returned, in the order of the entries: nothing of the earlier
    sets is kept, merged or compared. *)
Theorem count_push_replaces_ids :
  forall (earlier : list (Z * settled (list Entry))) (count : Z)
         (found : list (list byte * Course)) (rt : Runtime),
    courseIds (state (count_pushes (earlier ++ [(count, Fulfilled (present found))]) rt))
    = map (fun kc => dna (snd kc)) found.
Proof.
  intros earlier count found rt. unfold count_pushes.
  rewrite fold_left_app. cbn.
  unfold countForCourses_push. cbn.
  rewrite onCount_present. reflexivity.
Qed.

(** ** The course card *)

Lemma strict_eq_str_true (v : jsval) (s : string) :
  strict_eq_str v s = true <-> v = JStr s.
Proof.
  destruct v as [|[| |n|t]| |]; cbn; try (split; [discriminate|intros [=]]).
  rewrite String.eqb_eq. split; [intros ->; reflexivity|intros [= ->]; reflexivity].
Qed.

Lemma strict_eq_str_or_null (v : jsval) (s : string) :
  strict_eq_str (or_null v) s = strict_eq_str v s.
Proof. destruct v; reflexivity. Qed.

(** A card is rendered only from a wire [dna], and then it is this card. *)
Lemma CourseCard_inv (address : string) (course : Course) (card : Card) :
  CourseCard address course = Ok card ->
  exists d : Codec,
    dna course = JCodec d /\
    card = {| mine := strict_eq_str (owner course) address;
              avatar := toU8a d;
              displayDna := JPlain (toJSON d);
              yearText := or_null (course_year course);
              ownerText := or_null (owner course);
              priceText := js_or (or_null (price course)) (JStr "Not For Sale");
              actions :=
                if strict_eq_str (owner course) address
                then [SetPriceButton; TransferButton]
                else BuyCourse.render course |}.
Proof.
  unfold CourseCard. rewrite strict_eq_str_or_null.
  destruct (dna course) as [|[|b|n|s]|d|h] eqn:Hd; cbn;
    try discriminate.
  - destruct b; cbn; discriminate.
  - destruct (n =? 0); cbn; discriminate.
  - destruct (String.eqb s ""); cbn; discriminate.
  - intros [= <-]. exists d. split; reflexivity.
Qed.

Lemma CourseCard_plain_dna (address : string) (course : Course) :
  is_codec (dna course) = false -> returns (CourseCard address course) = false.
Proof.
  intros Hd. destruct (CourseCard address course) as [card|e] eqn:H; [|reflexivity].
  apply CourseCard_inv in H as (d & Hdna & _). rewrite Hdna in Hd. discriminate.
Qed.

(** C3: on a rendered card, the owner's own record shows exactly Set Price
    and Transfer, whatever the price; another account's record shows
    exactly Buy Course when its price is a positive number, and nothing
    when its price is missing, null or zero. *)
Theorem CourseCard_action_set :
  forall (address : string) (course : Course) (card : Card),
    CourseCard address course = Ok card ->
    (owner course = JStr address ->
       actions card = [SetPriceButton; TransferButton]) /\
    (owner course <> JStr address ->
       (forall p, 0 < p -> price course = JNum p ->
          actions card = [BuyCourseButton]) /\
       (price course = JUndefined \/ price course = JNull \/ price course = JNum 0 ->
          actions card = [])).
Proof.
  intros address course card H.
  apply CourseCard_inv in H as (d & _ & ->). cbn.
  destruct (strict_eq_str (owner course) address) eqn:Ho.
  - apply strict_eq_str_true in Ho. split; [reflexivity|]. intros Hne. contradiction.
  - split.
    + intros Heq. apply strict_eq_str_true in Heq. congruence.
    + intros _. unfold BuyCourse.render. split.
      * intros p Hp ->. cbn. destruct (Z.eqb_spec p 0); [lia|reflexivity].
      * intros [-> | [-> | ->]]; reflexivity.
Qed.

Lemma CourseCard_action_set_witness :
  (exists card, CourseCard "5Alice" Sample.course1 = Ok card /\
                actions card = [SetPriceButton; TransferButton]) /\
  (exists card, CourseCard "5Bob" Sample.course1 = Ok card /\
                actions card = [BuyCourseButton]).
Proof.
  split; eexists; (split; [reflexivity|]).
  - apply (proj1 (CourseCard_action_set "5Alice" Sample.course1 _ eq_refl)).
    reflexivity.
  - apply (proj1 (proj2 (CourseCard_action_set "5Bob" Sample.course1 _ eq_refl)
                    ltac:(discriminate)) 5); [lia|reflexivity].
Defined.



(** C10: [parseCourse] turns price, course_year and owner into the plain
    values their wire objects give by [toJSON] and hands [dna] on as it
    came; the card made from the parsed record shows [dna.toJSON()] and
    feeds [dna.toU8a()] to the avatar; and a record whose [dna] is a plain
    value makes [CourseCard] throw. *)
Theorem parseCourse_keeps_dna_for_card :
  forall (address : string) (d p y o : Codec),
    parseCourse (MkCourse (JCodec d) (JCodec p) (JCodec y) (JCodec o))
    = Ok (MkCourse (JCodec d) (JPlain (toJSON p)) (JPlain (toJSON y)) (JPlain (toJSON o))) /\
    (exists card,
       CourseCard address
         (MkCourse (JCodec d) (JPlain (toJSON p)) (JPlain (toJSON y)) (JPlain (toJSON o)))
       = Ok card /\
       displayDna card = JPlain (toJSON d) /\ avatar card = toU8a d) /\
    (forall (pd : plain) (price' year' owner' : jsval),
       returns (CourseCard address (MkCourse (JPlain pd) price' year' owner')) = false).
Proof.
  intros address d p y o. split; [reflexivity|]. split.
  - eexists. split; [reflexivity|]. split; reflexivity.
  - intros pd price' year' owner'. apply CourseCard_plain_dna. reflexivity.
Qed.

(** ** Opening and releasing the subscriptions *)

(** C6: the function either effect returns is safe while its [unsub] is
    still unset (the variable starts as [null]; [undefined] is treated
    alike): it returns without a throw and invokes nothing.  Once the open
    has resolved to a function, the cleanup invokes that function, once. *)
Theorem cleanup_before_and_after_open :
  forall (rt : Runtime) (h : nat),
    (subscribeCount_cleanup (fst (subscribeCount rt)) (snd (subscribeCount rt))
     = Ok (snd (subscribeCount rt)) /\
     subscribeCourses_cleanup (fst (subscribeCourses rt)) (snd (subscribeCourses rt))
     = Ok (snd (subscribeCourses rt))) /\
    (subscribeCount_cleanup {| unsub := JUndefined |} rt = Ok rt /\
     subscribeCourses_cleanup {| unsub := JUndefined |} rt = Ok rt) /\
    (subscribeCount_cleanup
       (fst (subscribeCount_resume (Fulfilled (JFun h))
               (fst (subscribeCount rt)) (snd (subscribeCount rt))))
       (snd (subscribeCount_resume (Fulfilled (JFun h))
               (fst (subscribeCount rt)) (snd (subscribeCount rt))))
     = Ok (release [h] (snd (subscribeCount rt))) /\
     subscribeCourses_cleanup
       (fst (subscribeCourses_resume (Fulfilled (JFun h))
               (fst (subscribeCourses rt)) (snd (subscribeCourses rt))))
       (snd (subscribeCourses_resume (Fulfilled (JFun h))
               (fst (subscribeCourses rt)) (snd (subscribeCourses rt))))
     = Ok (release [h] (snd (subscribeCourses rt)))) /\
    (forall cl : Closure,
       released (settle rt (subscribeCount_cleanup cl rt))
       = released rt ++ callee (unsub cl) /\
       released (settle rt (subscribeCourses_cleanup cl rt))
       = released rt ++ callee (unsub cl)).
Proof.
  intros rt h. repeat split; try reflexivity;
    destruct cl as [[|[|b|n|s]|c|k]]; cbn; rewrite ?app_nil_r; try reflexivity.
  all: unfold subscribeCount_cleanup, subscribeCourses_cleanup; cbn;
    match goal with
    | |- context [if ?c then _ else _] => destruct c; reflexivity
    end.
Qed.

(** C5, as the code has it: when the open of the count subscription fails,
    or the enumeration query inside its callback fails, nothing reaches
    the status line.  The state cells are left as they were, [unsub] stays
    [null], no request is issued again, and the failure ends as the
    rejection of a promise that nothing awaits. *)
Theorem subscribeCount_failure_unreported :
  forall (e : exn) (count : Z) (rt : Runtime),
    (state (snd (subscribeCount_resume (Rejected e)
                   (fst (subscribeCount rt)) (snd (subscribeCount rt))))
     = state rt /\
     unsub (fst (subscribeCount_resume (Rejected e)
                   (fst (subscribeCount rt)) (snd (subscribeCount rt))))
     = JNull /\
     requests (snd (subscribeCount_resume (Rejected e)
                      (fst (subscribeCount rt)) (snd (subscribeCount rt))))
     = requests rt ++ [CountForCourses] /\
     unhandled (snd (subscribeCount_resume (Rejected e)
                       (fst (subscribeCount rt)) (snd (subscribeCount rt))))
     = unhandled rt ++ [e]) /\
    (state (countForCourses_push count (Rejected e) rt) = state rt /\
     requests (countForCourses_push count (Rejected e) rt)
     = requests rt ++ [CoursesEntries] /\
     unhandled (countForCourses_push count (Rejected e) rt) = unhandled rt ++ [e]).
Proof.
  intros e count rt. repeat split.
Qed.

(** C5 as the specification words it fails: after the open of the count
    subscription failed with "disconnected", the status line is still the
    empty string it was at mount. *)
Lemma subscribeCount_failure_status_empty :
  status (state (snd (subscribeCount_resume (Rejected (Error "disconnected"))
                        (fst (subscribeCount mounted)) (snd (subscribeCount mounted)))))
  = "" /\
  status (state (snd (subscribeCount_resume (Rejected (Error "disconnected"))
                        (fst (subscribeCount mounted)) (snd (subscribeCount mounted)))))
  <> "disconnected".
Proof.
  split; [reflexivity|discriminate].
Qed.

(** ** The dialogs *)

Lemma confirmAndClose_closes (unsub : jsval) (d : Dialog) :
  open (fst (TransferModal.confirmAndClose unsub d)) = false /\
  open (fst (SetPrice.confirmAndClose unsub d)) = false /\
  open (fst (BuyCourse.confirmAndClose unsub d)) = false.
Proof.
  unfold TransferModal.confirmAndClose, SetPrice.confirmAndClose,
    BuyCourse.confirmAndClose.
  destruct (truthy unsub && is_function unsub); repeat split.
Qed.

Lemma TxButton_click_filled (a : Attrs) onClick watch lifecycle (pg : Page) :
  existsb empty_input (inputParams a) = false ->
  submitted (TxButton_click a onClick watch lifecycle pg) = submitted pg ++ [a] /\
  dialog (TxButton_click a onClick watch lifecycle pg) = fst (onClick watch (dialog pg)).
Proof.
  intros H. unfold TxButton_click. rewrite H.
  destruct (onClick watch (dialog pg)) as [d hs]. split; reflexivity.
Qed.

Lemma TxButton_click_empty (a : Attrs) onClick watch lifecycle (pg : Page) :
  existsb empty_input (inputParams a) = true ->
  TxButton_click a onClick watch lifecycle pg = pg.
Proof. intros H. unfold TxButton_click. rewrite H. reflexivity. Qed.

Lemma prop_formChange (key value : string) (d : Dialog) :
  prop (formValue (TransferModal.formChange key value d)) key = JStr value /\
  prop (formValue (SetPrice.formChange key value d)) key = JStr value.
Proof.
  unfold prop; cbn. rewrite lookup_insert_eq. split; reflexivity.
Qed.

Lemma empty_input_JStr (s : string) : s <> "" -> empty_input (JStr s) = false.
Proof. intros H. cbn. apply String.eqb_neq, H. Qed.

Lemma TransferModal_confirm_typed course watch lifecycle (pg : Page) (receiver : string) :
  empty_input (dna course) = false -> receiver <> "" ->
  submitted (TransferModal_confirm course watch lifecycle
               (with_dialog (TransferModal.formChange "target" receiver (dialog pg)) pg))
  = submitted pg
    ++ [MkAttrs "courseGrading" "transfer" [JStr receiver; dna course] [true; true]] /\
  open (dialog (TransferModal_confirm course watch lifecycle
                  (with_dialog (TransferModal.formChange "target" receiver (dialog pg)) pg)))
  = false.
Proof.
  intros Hdna Hr.
  assert (Hfilled : existsb empty_input
            (inputParams (TransferModal.attrs course
               (TransferModal.formChange "target" receiver (dialog pg)))) = false).
  { unfold TransferModal.attrs. rewrite (proj1 (prop_formChange _ _ _)).
    cbn -[empty_input]. rewrite empty_input_JStr, Hdna by assumption. reflexivity. }
  unfold TransferModal_confirm. cbn [dialog with_dialog].
  destruct (TxButton_click_filled _ TransferModal.confirmAndClose watch lifecycle
              (with_dialog (TransferModal.formChange "target" receiver (dialog pg)) pg)
              Hfilled) as [Hs Hd].
  rewrite Hs, Hd. split.
  - unfold TransferModal.attrs. rewrite (proj1 (prop_formChange _ _ _)). reflexivity.
  - apply confirmAndClose_closes.
Qed.

Lemma SetPrice_confirm_typed course watch lifecycle (pg : Page) (newPrice : string) :
  empty_input (dna course) = false -> newPrice <> "" ->
  submitted (SetPrice_confirm course watch lifecycle
               (with_dialog (SetPrice.formChange "target" newPrice (dialog pg)) pg))
  = submitted pg
    ++ [MkAttrs "courseGrading" "setPrice" [dna course; JStr newPrice] [true; true]] /\
  open (dialog (SetPrice_confirm course watch lifecycle
                  (with_dialog (SetPrice.formChange "target" newPrice (dialog pg)) pg)))
  = false.
Proof.
  intros Hdna Hp.
  assert (Hfilled : existsb empty_input
            (inputParams (SetPrice.attrs course
               (SetPrice.formChange "target" newPrice (dialog pg)))) = false).
  { unfold SetPrice.attrs. rewrite (proj2 (prop_formChange _ _ _)).
    cbn -[empty_input]. rewrite empty_input_JStr, Hdna by assumption. reflexivity. }
  unfold SetPrice_confirm. cbn [dialog with_dialog].
  destruct (TxButton_click_filled _ SetPrice.confirmAndClose watch lifecycle
              (with_dialog (SetPrice.formChange "target" newPrice (dialog pg)) pg)
              Hfilled) as [Hs Hd].
  rewrite Hs, Hd. split.
  - unfold SetPrice.attrs. rewrite (proj2 (prop_formChange _ _ _)). reflexivity.
  - apply confirmAndClose_closes.
Qed.

Lemma BuyCourse_confirm_filled course watch lifecycle (pg : Page) :
  empty_input (dna course) = false -> empty_input (price course) = false ->
  submitted (BuyCourse_confirm course watch lifecycle pg)
  = submitted pg
    ++ [MkAttrs "courseGrading" "buyCourse" [dna course; price course] [true; true]] /\
  open (dialog (BuyCourse_confirm course watch lifecycle pg)) = false.
Proof.
  intros Hdna Hprice.
  assert (Hfilled : existsb empty_input
            (inputParams (BuyCourse.attrs course (dialog pg))) = false).
  { cbn -[empty_input]. rewrite Hdna, Hprice. reflexivity. }
  unfold BuyCourse_confirm.
  destruct (TxButton_click_filled _ BuyCourse.confirmAndClose watch lifecycle pg
              Hfilled) as [Hs Hd].
  rewrite Hs, Hd. split; [reflexivity|apply confirmAndClose_closes].
Qed.

(** C4: a confirm whose inputs are filled in hands the submission primitive
    the descriptor of its dialog, in module courseGrading and with flags
    [true, true]: transfer(receiver, dna), setPrice(dna, new price),
    buyCourse(dna, price); the dialog is closed afterwards whatever status
    texts the transaction goes on to report. *)
Theorem confirm_submits_descriptor :
  forall (course : Course) (watch : jsval) (lifecycle : list string) (pg : Page),
    empty_input (dna course) = false ->
    (forall receiver : string, receiver <> "" ->
       let typed := with_dialog (TransferModal.formChange "target" receiver (dialog pg)) pg in
       submitted (TransferModal_confirm course watch lifecycle typed)
       = submitted pg
         ++ [MkAttrs "courseGrading" "transfer" [JStr receiver; dna course] [true; true]] /\
       open (dialog (TransferModal_confirm course watch lifecycle typed)) = false) /\
    (forall newPrice : string, newPrice <> "" ->
       let typed := with_dialog (SetPrice.formChange "target" newPrice (dialog pg)) pg in
       submitted (SetPrice_confirm course watch lifecycle typed)
       = submitted pg
         ++ [MkAttrs "courseGrading" "setPrice" [dna course; JStr newPrice] [true; true]] /\
       open (dialog (SetPrice_confirm course watch lifecycle typed)) = false) /\
    (empty_input (price course) = false ->
       submitted (BuyCourse_confirm course watch lifecycle pg)
       = submitted pg
         ++ [MkAttrs "courseGrading" "buyCourse" [dna course; price course] [true; true]] /\
       open (dialog (BuyCourse_confirm course watch lifecycle pg)) = false).
Proof.
  intros course watch lifecycle pg Hdna. split; [|split].
  - intros receiver Hr typed. apply TransferModal_confirm_typed; assumption.
  - intros newPrice Hp typed. apply SetPrice_confirm_typed; assumption.
  - intros Hprice. apply BuyCourse_confirm_filled; assumption.
Qed.

Lemma confirm_submits_descriptor_witness :
  submitted (TransferModal_confirm Sample.course1 (JFun 7) ["Sending"; "Finalized"]
               (with_dialog (TransferModal.formChange "target" "R" (dialog opened_page))
                  opened_page))
  = [MkAttrs "courseGrading" "transfer" [JStr "R"; Sample.dna1] [true; true]] /\
  open (dialog (TransferModal_confirm Sample.course1 (JFun 7) ["Sending"; "Finalized"]
                  (with_dialog (TransferModal.formChange "target" "R" (dialog opened_page))
                     opened_page)))
  = false.
Proof.
  apply (proj1 (confirm_submits_descriptor Sample.course1 (JFun 7)
                  ["Sending"; "Finalized"] opened_page eq_refl) "R").
  discriminate.
Defined.

(** C7: the dialogs for the receiver and for the new price check nothing
    but that something was entered.  A confirm while the input is missing
    or empty changes nothing and submits nothing; any other text, whatever
    it looks like, reaches the submission primitive as it was typed. *)
Theorem dialogs_check_nonempty_only :
  forall (course : Course) (watch : jsval) (lifecycle : list string) (pg : Page),
    (empty_input (prop (formValue (dialog pg)) "target") = true ->
       TransferModal_confirm course watch lifecycle pg = pg /\
       SetPrice_confirm course watch lifecycle pg = pg) /\
    (forall text : string, text <> "" -> empty_input (dna course) = false ->
       submitted (TransferModal_confirm course watch lifecycle
                    (with_dialog (TransferModal.formChange "target" text (dialog pg)) pg))
       = submitted pg
         ++ [MkAttrs "courseGrading" "transfer" [JStr text; dna course] [true; true]] /\
       submitted (SetPrice_confirm course watch lifecycle
                    (with_dialog (SetPrice.formChange "target" text (dialog pg)) pg))
       = submitted pg
         ++ [MkAttrs "courseGrading" "setPrice" [dna course; JStr text] [true; true]]).
Proof.
  intros course watch lifecycle pg. split.
  - intros Hempty. split.
    + apply TxButton_click_empty. cbn -[empty_input]. rewrite Hempty. reflexivity.
    + apply TxButton_click_empty. cbn -[empty_input]. rewrite Hempty.
      apply orb_true_r.
  - intros text Htext Hdna. split.
    + apply TransferModal_confirm_typed; assumption.
    + apply SetPrice_confirm_typed; assumption.
Qed.

Lemma dialogs_check_nonempty_only_witness :
  (TransferModal_confirm Sample.course1 JUndefined [] opened_page = opened_page /\
   SetPrice_confirm Sample.course1 JUndefined [] opened_page = opened_page) /\
  (submitted (TransferModal_confirm Sample.course1 JUndefined []
                (with_dialog (TransferModal.formChange "target" "not an address"
                                (dialog opened_page)) opened_page))
   = [MkAttrs "courseGrading" "transfer" [JStr "not an address"; Sample.dna1]
        [true; true]] /\
   submitted (SetPrice_confirm Sample.course1 JUndefined []
                (with_dialog (SetPrice.formChange "target" "not an address"
                                (dialog opened_page)) opened_page))
   = [MkAttrs "courseGrading" "setPrice" [Sample.dna1; JStr "not an address"]
        [true; true]]).
Proof.
  split.
  - apply (proj1 (dialogs_check_nonempty_only Sample.course1 JUndefined [] opened_page)).
    reflexivity.
  - apply (proj2 (dialogs_check_nonempty_only Sample.course1 JUndefined [] opened_page)
             "not an address"); [discriminate|reflexivity].
Defined.

(** ** Further properties of [Course.js] *)

Section MapMLookup.
Context {A B : Type}.
Implicit Types (f : A -> result B) (l : list A) (r : list B).

Lemma mapM_result_lookup f l r (i : nat) (x : A) :
  mapM f l = Ok r -> l !! i = Some x ->
  exists y, f x = Ok y /\ r !! i = Some y.
Proof.
  revert r i. induction l as [|a l IH]; intros r i; cbn; [intros _ [=]|].
  destruct (f a) as [b|e] eqn:Ha; cbn; [|discriminate].
  destruct (mapM f l) as [r'|e] eqn:Hl; cbn; [|discriminate].
  intros [= <-]. destruct i as [|i]; cbn.
  - intros [= <-]. exists b. split; [exact Ha|reflexivity].
  - intros Hx. apply (IH r' i eq_refl Hx).
Qed.

Lemma mapM_result_returns f l :
  returns (mapM f l) = forallb (fun x => returns (f x)) l.
Proof.
  induction l as [|a l IH]; [reflexivity|]. cbn.
  destruct (f a); cbn; [|reflexivity].
  rewrite <- IH. destruct (mapM f l); reflexivity.
Qed.

End MapMLookup.

Lemma parseCourse_cases (c : Course) :
  if wire c then parseCourse c = Ok (parsed c)
  else exists msg, parseCourse c = Throw (TypeError msg).
Proof.
  destruct c as [d p y o]. unfold parseCourse, wire; cbn.
  destruct p as [|[| | |]| |]; cbn; try (eexists; reflexivity).
  destruct y as [|[| | |]| |]; cbn; try (eexists; reflexivity).
  destruct o as [|[| | |]| |]; cbn; first [reflexivity | eexists; reflexivity].
Qed.

Lemma parseCourse_returns (c : Course) : returns (parseCourse c) = wire c.
Proof.
  pose proof (parseCourse_cases c) as H. destruct (wire c).
  - rewrite H. reflexivity.
  - destruct H as [msg ->]. reflexivity.
Qed.

Lemma parsed_not_wire (c : Course) : wire c = true -> wire (parsed c) = false.
Proof.
  destruct c as [d p y o]. unfold wire; cbn.
  destruct p; cbn; try discriminate. reflexivity.
Qed.

(** X1: [parseCourse] returns exactly on the records whose price,
    course_year and owner are all wire objects, whatever [dna] is; on every
    other record it throws a TypeError. *)
Theorem parseCourse_returns_iff_wire :
  forall c : Course,
    returns (parseCourse c) = wire c /\
    (parseCourse c = Ok (parsed c) \/
     exists msg, parseCourse c = Throw (TypeError msg)).
Proof.
  intros c. split; [apply parseCourse_returns|].
  pose proof (parseCourse_cases c) as H.
  destruct (wire c); [left|right]; exact H.
Qed.

(** X2: a record that [parseCourse] produced cannot be parsed again: it
    keeps the [dna] it came with, but its price, course_year and owner are
    plain values now, which have no [toJSON]. *)
Theorem parseCourse_not_twice :
  forall c c' : Course,
    parseCourse c = Ok c' ->
    dna c' = dna c /\ wire c' = false /\ returns (parseCourse c') = false.
Proof.
  intros c c' H.
  assert (Hw : wire c = true).
  { rewrite <- parseCourse_returns, H. reflexivity. }
  rewrite (parseCourse_wire c Hw) in H. injection H as <-.
  split; [reflexivity|].
  pose proof (parsed_not_wire c Hw) as Hw'.
  split; [exact Hw'|].
  rewrite parseCourse_returns. exact Hw'.
Qed.

Lemma parseCourse_not_twice_witness :
  dna Sample.course1 = dna Sample.raw1 /\ wire Sample.course1 = false /\
  returns (parseCourse Sample.course1) = false.
Proof.
  apply (parseCourse_not_twice Sample.raw1 Sample.course1). reflexivity.
Defined.

(** X3: a count push that is handled to the end touches only the
    identifier cell, and fills it position by position: the i-th identifier
    is the [dna] of the record in the i-th entry, so there are as many
    identifiers as entries, repeated ones included. *)
Theorem onCount_positional :
  forall (count : Z) (entries : list Entry) (st st' : State),
    onCount count entries st = Ok st' ->
    courses st' = courses st /\ status st' = status st /\
    length (courseIds st') = length entries /\
    (forall (i : nat) (e : Entry), entries !! i = Some e ->
       exists c, snd e = Some c /\ courseIds st' !! i = Some (dna c)).
Proof.
  intros count entries st st'. unfold onCount.
  destruct (mapM _ entries) as [ids|e] eqn:Hm; cbn; [|discriminate].
  intros [= <-]. cbn. repeat split.
  - apply (mapM_result_length _ _ _ Hm).
  - intros i e He.
    destruct (mapM_result_lookup _ _ _ i e Hm He) as (id & Hf & Hid).
    destruct e as [k [c|]]; cbn in Hf; [|discriminate].
    injection Hf as <-. exists c. split; [reflexivity|exact Hid].
Qed.

Lemma onCount_positional_witness :
  courses (setCourseIds [Sample.dna1] initialState) = courses initialState /\
  status (setCourseIds [Sample.dna1] initialState) = status initialState /\
  length (courseIds (setCourseIds [Sample.dna1] initialState))
  = length [([x01], Some Sample.raw1)] /\
  (forall (i : nat) (e : Entry), [([x01], Some Sample.raw1)] !! i = Some e ->
     exists c, snd e = Some c /\
               courseIds (setCourseIds [Sample.dna1] initialState) !! i = Some (dna c)).
Proof.
  apply (onCount_positional 1 [([x01], Some Sample.raw1)] initialState). reflexivity.
Defined.

(** X4: a resolution push that is handled to the end touches only the
    record cell; every pushed record was present and in wire form, and the
    i-th record of CourseRecords is the parse of the i-th pushed record. *)
Theorem onCourses_positional :
  forall (pushed : list (option Course)) (st st' : State),
    onCourses pushed st = Ok st' ->
    courseIds st' = courseIds st /\ status st' = status st /\
    length (courses st') = length pushed /\
    (forall (i : nat) (o : option Course), pushed !! i = Some o ->
       exists raw, o = Some raw /\ wire raw = true /\
                   courses st' !! i = Some (parsed raw)).
Proof.
  intros pushed st st'. unfold onCourses.
  destruct (mapM _ pushed) as [cs|e] eqn:Hm; cbn; [|discriminate].
  intros [= <-]. cbn. repeat split.
  - apply (mapM_result_length _ _ _ Hm).
  - intros i o Ho.
    destruct (mapM_result_lookup _ _ _ i o Hm Ho) as (c' & Hf & Hc).
    destruct o as [raw|]; cbn in Hf; [|discriminate].
    exists raw. split; [reflexivity|].
    assert (Hw : wire raw = true).
    { rewrite <- parseCourse_returns, Hf. reflexivity. }
    split; [exact Hw|].
    rewrite (parseCourse_wire raw Hw) in Hf. injection Hf as <-. exact Hc.
Qed.

Lemma onCourses_positional_witness :
  courseIds (setCourses [Sample.course1] initialState) = courseIds initialState /\
  status (setCourses [Sample.course1] initialState) = status initialState /\
  length (courses (setCourses [Sample.course1] initialState))
  = length [Some Sample.raw1] /\
  (forall (i : nat) (o : option Course), [Some Sample.raw1] !! i = Some o ->
     exists raw, o = Some raw /\ wire raw = true /\
                 courses (setCourses [Sample.course1] initialState) !! i
                 = Some (parsed raw)).
Proof.
  apply (onCourses_positional [Some Sample.raw1] initialState). reflexivity.
Defined.

Lemma onCount_absent_entry (count : Z) (es : list Entry) (k : list byte) (st : State) :
  In (k, None) es ->
  onCount count es st = Throw (Error "Option: unwrapping a None value").
Proof.
  intros Hin. unfold onCount.
  assert (Hm : mapM (fun entry : Entry => c ← unwrap (snd entry); mret (dna c)) es
               = Throw (Error "Option: unwrapping a None value")).
  { induction es as [|[k' [c|]] es IH]; [destruct Hin| |reflexivity].
    destruct Hin as [[=]|Hin]. cbn. rewrite (IH Hin). reflexivity. }
  rewrite Hm. reflexivity.
Qed.

(** X5: when the enumeration of a count push holds an entry without a
    record, the callback throws at [unwrap] before [setCourseIds]: no cell
    changes, the identifiers of the entries before the gap are not stored
    either, and the error is left as an unhandled rejection. *)
Theorem count_push_absent_entry :
  forall (count : Z) (es : list Entry) (k : list byte) (rt : Runtime),
    In (k, None) es ->
    state (countForCourses_push count (Fulfilled es) rt) = state rt /\
    unhandled (countForCourses_push count (Fulfilled es) rt)
    = unhandled rt ++ [Error "Option: unwrapping a None value"].
Proof.
  intros count es k rt Hin. unfold countForCourses_push. cbn.
  rewrite (onCount_absent_entry count es k _ Hin). split; reflexivity.
Qed.

Lemma count_push_absent_entry_witness :
  state (countForCourses_push 2
           (Fulfilled [([x01], Some Sample.raw1); ([x02], None)]) mounted)
  = state mounted /\
  unhandled (countForCourses_push 2
               (Fulfilled [([x01], Some Sample.raw1); ([x02], None)]) mounted)
  = unhandled mounted ++ [Error "Option: unwrapping a None value"].
Proof.
  apply (count_push_absent_entry 2 [([x01], Some Sample.raw1); ([x02], None)] [x02]).
  right. left. reflexivity.
Defined.

Lemma countForCourses_push_frame (count : Z) (entries : settled (list Entry))
    (rt : Runtime) :
  courses (state (countForCourses_push count entries rt)) = courses (state rt) /\
  status (state (countForCourses_push count entries rt)) = status (state rt) /\
  requests (countForCourses_push count entries rt) = requests rt ++ [CoursesEntries] /\
  released (countForCourses_push count entries rt) = released rt.
Proof.
  unfold countForCourses_push.
  destruct entries as [es|e]; cbn; [|repeat split].
  unfold onCount.
  destruct (mapM _ es); cbn; repeat split.
Qed.

Lemma count_pushes_frame (ps : list (Z * settled (list Entry))) (rt : Runtime) :
  courses (state (count_pushes ps rt)) = courses (state rt) /\
  status (state (count_pushes ps rt)) = status (state rt) /\
  requests (count_pushes ps rt) = requests rt ++ repeat CoursesEntries (length ps) /\
  released (count_pushes ps rt) = released rt.
Proof.
  unfold count_pushes. revert rt.
  induction ps as [|[count entries] ps IH]; intros rt; cbn.
  - rewrite app_nil_r. repeat split.
  - destruct (IH (countForCourses_push count entries rt)) as (Hc & Hs & Hr & Hl).
    destruct (countForCourses_push_frame count entries rt) as (Hc' & Hs' & Hr' & Hl').
    rewrite Hc, Hs, Hr, Hl, Hc', Hs', Hr', Hl'.
    rewrite <- app_assoc. repeat split.
Qed.

(** X6: every count push asks for the full enumeration once, whether its
    handling then succeeds, throws or the query is rejected: after a run of
    pushes there is one "entries" request per push and no other request,
    and no unsubscribe handle was invoked. *)
Theorem count_pushes_enumerate_each_time :
  forall (ps : list (Z * settled (list Entry))) (rt : Runtime),
    requests (count_pushes ps rt) = requests rt ++ repeat CoursesEntries (length ps) /\
    released (count_pushes ps rt) = released rt.
Proof.
  intros ps rt. destruct (count_pushes_frame ps rt) as (_ & _ & Hr & Hl).
  split; assumption.
Qed.

(** X7: count pushes alone change nothing on the screen: they leave the
    records and the status line alone, so [Courses] renders after them what
    it rendered before. *)
Theorem count_pushes_render_unchanged :
  forall (address : string) (ps : list (Z * settled (list Entry))) (rt : Runtime),
    courses (state (count_pushes ps rt)) = courses (state rt) /\
    status (state (count_pushes ps rt)) = status (state rt) /\
    Courses address (state (count_pushes ps rt)) = Courses address (state rt).
Proof.
  intros address ps rt. destruct (count_pushes_frame ps rt) as (Hc & Hs & _).
  repeat split; try assumption.
  unfold Courses. rewrite Hc, Hs. reflexivity.
Qed.

(** ** Further properties of the cards and their dialogs *)

Lemma prop_insert (o : gmap string jsval) (k k' : string) (v : jsval) :
  prop (<[k := v]> o) k' = if String.eqb k k' then v else prop o k'.
Proof.
  unfold prop. destruct (String.eqb_spec k k') as [->|Hne].
  - rewrite lookup_insert_eq. reflexivity.
  - rewrite lookup_insert_ne by exact Hne. reflexivity.
Qed.

(** X8: [formChange] writes one property of [formValue] and nothing else:
    the key it wrote reads back as the typed text, every other key reads as
    before, a second write to the key replaces the first, and the dialog
    stays open or closed as it was.  The same holds in both dialogs. *)
Theorem formChange_writes_one_key :
  forall (k k' v v2 : string) (d : Dialog),
    (prop (formValue (TransferModal.formChange k v d)) k'
     = (if String.eqb k k' then JStr v else prop (formValue d) k') /\
     TransferModal.formChange k v2 (TransferModal.formChange k v d)
     = TransferModal.formChange k v2 d /\
     open (TransferModal.formChange k v d) = open d) /\
    (prop (formValue (SetPrice.formChange k v d)) k'
     = (if String.eqb k k' then JStr v else prop (formValue d) k') /\
     SetPrice.formChange k v2 (SetPrice.formChange k v d)
     = SetPrice.formChange k v2 d /\
     open (SetPrice.formChange k v d) = open d).
Proof.
  intros k k' v v2 d.
  unfold TransferModal.formChange, SetPrice.formChange; cbn.
  rewrite prop_insert, insert_insert_eq. repeat split.
Qed.

(** X9: closing a dialog does not clear what was typed.  After a receiver or
    a price was typed, a confirm or a cancel followed by a reopening leaves
    the descriptor with the same typed parameter, although nothing was typed
    again. *)
Theorem typed_value_survives_close :
  forall (course : Course) (unsub : jsval) (text : string) (d : Dialog),
    (inputParams (TransferModal.attrs course
        (setOpen true (fst (TransferModal.confirmAndClose unsub
                              (TransferModal.formChange "target" text d)))))
     = [JStr text; dna course] /\
     inputParams (TransferModal.attrs course
        (setOpen true (setOpen false (TransferModal.formChange "target" text d))))
     = [JStr text; dna course]) /\
    (inputParams (SetPrice.attrs course
        (setOpen true (fst (SetPrice.confirmAndClose unsub
                              (SetPrice.formChange "target" text d)))))
     = [dna course; JStr text] /\
     inputParams (SetPrice.attrs course
        (setOpen true (setOpen false (SetPrice.formChange "target" text d))))
     = [dna course; JStr text]).
Proof.
  intros course unsub text d.
  unfold TransferModal.confirmAndClose, SetPrice.confirmAndClose,
    TransferModal.attrs, SetPrice.attrs.
  destruct (truthy unsub && is_function unsub); cbn;
    rewrite prop_insert; cbn; repeat split.
Qed.

(** X10: [confirmAndClose] accepts any argument: it checks
    [typeof unsub === 'function'] before the call, so a value that is truthy
    but not a function is ignored and the dialog still closes.  The cleanup
    of the effects has no such check and throws on the same value. *)
Theorem confirmAndClose_guards_call :
  forall (v : jsval) (d : Dialog) (rt : Runtime),
    (snd (TransferModal.confirmAndClose v d) = callee v /\
     snd (SetPrice.confirmAndClose v d) = callee v /\
     snd (BuyCourse.confirmAndClose v d) = callee v) /\
    (truthy v = true -> is_function v = false ->
       open (fst (TransferModal.confirmAndClose v d)) = false /\
       snd (TransferModal.confirmAndClose v d) = [] /\
       returns (subscribeCount_cleanup {| unsub := v |} rt) = false /\
       returns (subscribeCourses_cleanup {| unsub := v |} rt) = false).
Proof.
  intros v d rt. split.
  - unfold TransferModal.confirmAndClose, SetPrice.confirmAndClose,
      BuyCourse.confirmAndClose.
    destruct v as [|[|b|n|s]|c|h]; cbn; repeat split;
      match goal with
      | |- context [if ?c then _ else _] => destruct c; reflexivity
      | _ => reflexivity
      end.
  - intros Ht Hf.
    unfold TransferModal.confirmAndClose, subscribeCount_cleanup,
      subscribeCourses_cleanup. cbn. rewrite Ht, Hf. cbn.
    destruct v as [|[|b|n|s]|c|h]; cbn in *; try discriminate; repeat split.
Qed.

Lemma confirmAndClose_guards_call_witness :
  open (fst (TransferModal.confirmAndClose (JStr "Finalized") closed_dialog)) = false /\
  snd (TransferModal.confirmAndClose (JStr "Finalized") closed_dialog) = [] /\
  returns (subscribeCount_cleanup {| unsub := JStr "Finalized" |} mounted) = false /\
  returns (subscribeCourses_cleanup {| unsub := JStr "Finalized" |} mounted) = false.
Proof.
  apply (proj2 (confirmAndClose_guards_call (JStr "Finalized") closed_dialog mounted));
    reflexivity.
Defined.

Lemma CourseCard_returns (address : string) (course : Course) :
  returns (CourseCard address course) = is_codec (dna course).
Proof.
  destruct (is_codec (dna course)) eqn:Hd.
  - unfold CourseCard. destruct (dna course); try discriminate. reflexivity.
  - apply CourseCard_plain_dna, Hd.
Qed.

Lemma forallb_pointwise {A} (f g : A -> bool) (l : list A) :
  (forall x, f x = g x) -> forallb f l = forallb g l.
Proof.
  intros H. induction l as [|x l IH]; [reflexivity|].
  cbn. rewrite H, IH. reflexivity.
Qed.

Lemma CourseCards_returns (address : string) (cs : list Course) :
  returns (CourseCards address cs) = forallb (fun c => is_codec (dna c)) cs.
Proof.
  unfold CourseCards. destruct cs as [|c cs]; [reflexivity|].
  change (length (c :: cs) =? 0)%nat with false. cbv iota.
  rewrite <- (forallb_pointwise (fun c => returns (CourseCard address c))
                (fun c => is_codec (dna c)) (c :: cs) (CourseCard_returns address)).
  rewrite <- mapM_result_returns.
  destruct (mapM (CourseCard address) (c :: cs)); reflexivity.
Qed.

(** X11: the grid is rendered exactly when every record has a wire [dna]:
    one record whose [dna] is missing or plain makes [CourseCards] throw for
    the whole list, the good cards included; the empty list always renders. *)
Theorem CourseCards_all_or_nothing :
  forall (address : string) (cs : list Course),
    returns (CourseCards address cs) = forallb (fun c => is_codec (dna c)) cs /\
    (forall c, In c cs -> is_codec (dna c) = false ->
       returns (CourseCards address cs) = false).
Proof.
  intros address cs. split; [apply CourseCards_returns|].
  intros c Hin Hd. rewrite CourseCards_returns.
  apply not_true_is_false. intros Hall.
  rewrite forallb_forall in Hall. rewrite (Hall c Hin) in Hd. discriminate.
Qed.

Lemma CourseCards_all_or_nothing_witness :
  returns (CourseCards "5Alice"
             [Sample.course1; MkCourse (JStr "0x02") (JNum 1) (JNum 2024) (JStr "5Bob")])
  = false.
Proof.
  apply (proj2 (CourseCards_all_or_nothing "5Alice"
                  [Sample.course1;
                   MkCourse (JStr "0x02") (JNum 1) (JNum 2024) (JStr "5Bob")])
           (MkCourse (JStr "0x02") (JNum 1) (JNum 2024) (JStr "5Bob")));
    [right; left; reflexivity|reflexivity].
Defined.

Lemma CourseCards_shape (address : string) (cs : list Course) (v : View) :
  CourseCards address cs = Ok v ->
  match v with
  | MintCourses => cs = []
  | Grid cards =>
      cs <> [] /\ length cards = length cs /\
      (forall (i : nat) (c : Course), cs !! i = Some c ->
         exists card, cards !! i = Some card /\ CourseCard address c = Ok card)
  end.
Proof.
  unfold CourseCards.
  destruct cs as [|c cs]; [intros [= <-]; reflexivity|].
  change (length (c :: cs) =? 0)%nat with false. cbv iota.
  destruct (mapM (CourseCard address) (c :: cs)) as [cards|e] eqn:Hm;
    [|discriminate].
  intros [= <-]. split; [discriminate|]. split.
  - apply (mapM_result_length _ _ _ Hm).
  - intros i c' Hc'.
    destruct (mapM_result_lookup _ _ _ i c' Hm Hc') as (card & Hcard & Hi).
    exists card. split; assumption.
Qed.

(** X12: what [CourseCards] shows follows the list: the "Mint courses"
    placeholder exactly for the empty list, otherwise a grid with one card
    per record, the i-th card being the card of the i-th record. *)
Theorem CourseCards_one_card_per_course :
  forall (address : string) (cs : list Course) (v : View),
    CourseCards address cs = Ok v ->
    match v with
    | MintCourses => cs = []
    | Grid cards =>
        cs <> [] /\ length cards = length cs /\
        (forall (i : nat) (c : Course), cs !! i = Some c ->
           exists card, cards !! i = Some card /\ CourseCard address c = Ok card)
    end.
Proof.
  intros address cs v. apply CourseCards_shape.
Qed.

Lemma CourseCards_one_card_per_course_witness :
  ([] : list Course) = [] /\
  exists cards, CourseCards "5Bob" [Sample.course1] = Ok (Grid cards) /\
                length cards = length [Sample.course1].
Proof.
  split.
  - apply (CourseCards_one_card_per_course "5Bob" [] MintCourses). reflexivity.
  - eexists. split; [reflexivity|].
    apply (CourseCards_one_card_per_course "5Bob" [Sample.course1] (Grid _) eq_refl).
Defined.

(** X13: the price line and the Buy Course button follow the same test on
    the price.  On a rendered card a falsy price (missing, null, 0, the
    empty string) reads "Not For Sale" and shows no Buy Course button to
    anybody; any other price is shown as it is, and shows exactly the Buy
    Course button to everyone but the owner. *)
Theorem CourseCard_price_line :
  forall (address : string) (course : Course) (card : Card),
    CourseCard address course = Ok card ->
    (truthy (price course) = false ->
       priceText card = JStr "Not For Sale" /\ ~ In BuyCourseButton (actions card)) /\
    (truthy (price course) = true ->
       priceText card = price course /\
       (owner course <> JStr address -> actions card = [BuyCourseButton])).
Proof.
  intros address course card H.
  apply CourseCard_inv in H as (d & _ & ->). cbn. split; intros Hp.
  - split.
    + unfold js_or. destruct (price course) as [|[| | |]| |]; cbn in *;
        try discriminate; try reflexivity; rewrite Hp; reflexivity.
    + unfold BuyCourse.render. rewrite Hp. cbn.
      destruct (strict_eq_str (owner course) address); cbn; intuition discriminate.
  - split.
    + unfold js_or. destruct (price course) as [|[| | |]| |]; cbn in *;
        try discriminate; try reflexivity; rewrite Hp; reflexivity.
    + intros Hne. unfold BuyCourse.render. rewrite Hp. cbn.
      destruct (strict_eq_str (owner course) address) eqn:Ho; [|reflexivity].
      apply strict_eq_str_true in Ho. contradiction.
Qed.

Lemma CourseCard_price_line_witness :
  (exists card,
     CourseCard "5Bob" (MkCourse Sample.dna1 JNull (JNum 2024) (JStr "5Alice")) = Ok card /\
     priceText card = JStr "Not For Sale" /\ ~ In BuyCourseButton (actions card)) /\
  (exists card,
     CourseCard "5Bob" Sample.course1 = Ok card /\ priceText card = JNum 5).
Proof.
  split; eexists; (split; [reflexivity|]).
  - apply (proj1 (CourseCard_price_line "5Bob"
                    (MkCourse Sample.dna1 JNull (JNum 2024) (JStr "5Alice")) _ eq_refl)).
    reflexivity.
  - apply (proj2 (CourseCard_price_line "5Bob" Sample.course1 _ eq_refl)).
    reflexivity.
Defined.

(** ** From an enumeration to the grid *)

Lemma multi_on_ledger (ledger : jsval -> option Course)
    (found : list (list byte * Course)) :
  on_ledger ledger found ->
  multi ledger (map (fun kc => dna (snd kc)) found) = map Some (map snd found) /\
  forallb wire (map snd found) = true /\
  forallb (fun c => is_codec (dna c)) (map parsed (map snd found)) = true.
Proof.
  induction found as [|kc found IH]; intros H; [repeat split|].
  destruct (H kc (or_introl eq_refl)) as (Hw & Hd & Hl).
  destruct IH as (Hm & Hws & Hds).
  { intros kc' Hin. apply H. right. exact Hin. }
  unfold multi in *. cbn. rewrite Hl, Hm, Hw, Hws, Hd, Hds. repeat split.
Qed.

(** X14: one full cycle.  When a count push finds records that are on the
    ledger under their [dna] (all four fields in wire form), the effect that
    follows asks for exactly their identifiers, the resolution push is
    handled without a throw, CourseRecords becomes their parsed forms in
    enumeration order, and [Courses] renders: the placeholder when nothing
    was found, otherwise a grid with one card per record found, under the
    status line it had before. *)
Theorem enumeration_to_grid :
  forall (address : string) (ledger : jsval -> option Course)
         (found : list (list byte * Course)) (count : Z) (rt : Runtime),
    on_ledger ledger found ->
    let rt1 := countForCourses_push count (Fulfilled (present found)) rt in
    let rt2 := snd (subscribeCourses rt1) in
    requests rt2
    = requests rt ++ [CoursesEntries; CoursesMulti (map (fun kc => dna (snd kc)) found)] /\
    exists rt3 view,
      courses_push (multi ledger (courseIds (state rt2))) rt2 = Ok rt3 /\
      courses (state rt3) = map (fun kc => parsed (snd kc)) found /\
      Courses address (state rt3) = Ok view /\
      statusLine view = status (state rt) /\
      match cards view with
      | MintCourses => found = []
      | Grid cs => found <> [] /\ length cs = length found
      end.
Proof.
  intros address ledger found count rt Hl rt1 rt2.
  destruct (multi_on_ledger ledger found Hl) as (Hm & Hw & Hd).
  assert (H1 : state rt1 = setCourseIds (map (fun kc => dna (snd kc)) found) (state rt)).
  { subst rt1. unfold countForCourses_push. cbn. rewrite onCount_present. reflexivity. }
  assert (Hr1 : requests rt1 = requests rt ++ [CoursesEntries]).
  { apply countForCourses_push_frame. }
  assert (H2 : state rt2 = state rt1) by reflexivity.
  split.
  { subst rt2. cbn. rewrite Hr1, H1. cbn. rewrite <- app_assoc. reflexivity. }
  assert (Hpush : courses_push (multi ledger (courseIds (state rt2))) rt2
            = Ok (with_state (setCourses (map parsed (map snd found)) (state rt2)) rt2)).
  { unfold courses_push. rewrite H2, H1. cbn [courseIds setCourseIds].
    rewrite Hm, onCourses_present by exact Hw. reflexivity. }
  destruct (CourseCards address (map parsed (map snd found))) as [v|e] eqn:Hv.
  2:{ pose proof (CourseCards_returns address (map parsed (map snd found))) as Hret.
      rewrite Hv, Hd in Hret. discriminate. }
  eexists. exists (MkCoursesView v
    (MkAttrs "courseGrading" "createCourse" [] []) (status (state rt))).
  split; [exact Hpush|]. cbn [state with_state courses setCourses].
  split; [apply map_map|].
  split.
  { unfold Courses. cbn [courses setCourses status]. rewrite Hv, H2, H1. reflexivity. }
  split; [reflexivity|]. cbn [cards].
  pose proof (CourseCards_shape address _ v Hv) as Hshape.
  destruct v as [|cs].
  - destruct found; [reflexivity|discriminate].
  - destruct Hshape as (Hne & Hlen & _). split.
    + intros ->. apply Hne. reflexivity.
    + rewrite Hlen, !length_map. reflexivity.
Qed.

Lemma enumeration_to_grid_witness :
  on_ledger Sample.ledger1 [([x01], Sample.raw1)] /\
  exists rt3 view,
    courses_push [Some Sample.raw1]
      (snd (subscribeCourses
              (countForCourses_push 1 (Fulfilled (present [([x01], Sample.raw1)])) mounted)))
    = Ok rt3 /\
    courses (state rt3) = [Sample.course1] /\
    Courses "5Bob" (state rt3) = Ok view /\
    statusLine view = "" /\
    match cards view with
    | MintCourses => [([x01], Sample.raw1)] = []
    | Grid cs => [([x01], Sample.raw1)] <> [] /\ length cs = 1%nat
    end.
Proof.
  assert (Hl : on_ledger Sample.ledger1 [([x01], Sample.raw1)]).
  { intros kc [<-|[]]. repeat split. }
  split; [exact Hl|].
  exact (proj2 (enumeration_to_grid "5Bob" Sample.ledger1 [([x01], Sample.raw1)] 1
                  mounted Hl)).
Defined.

(** ** Order of open and teardown; what the ledger's owner decides *)

(** X15: the order of teardown and open matters.  If the cleanup of an
    effect runs before its open has resolved, it invokes nothing, and the
    handle that arrives afterwards is stored in the closure but never
    invoked: that subscription is not released.  If the open resolves first,
    the cleanup releases it.  Both effects behave alike. *)
Theorem teardown_before_open_leaks :
  forall (h : nat) (rt : Runtime),
    (exists rt2,
       subscribeCount_cleanup (fst (subscribeCount rt)) (snd (subscribeCount rt)) = Ok rt2 /\
       unsub (fst (subscribeCount_resume (Fulfilled (JFun h)) (fst (subscribeCount rt)) rt2))
       = JFun h /\
       released (snd (subscribeCount_resume (Fulfilled (JFun h))
                        (fst (subscribeCount rt)) rt2))
       = released rt) /\
    (exists rt2,
       subscribeCourses_cleanup (fst (subscribeCourses rt)) (snd (subscribeCourses rt))
       = Ok rt2 /\
       unsub (fst (subscribeCourses_resume (Fulfilled (JFun h)) (fst (subscribeCourses rt)) rt2))
       = JFun h /\
       released (snd (subscribeCourses_resume (Fulfilled (JFun h))
                        (fst (subscribeCourses rt)) rt2))
       = released rt) /\
    released (settle rt
      (subscribeCount_cleanup
         (fst (subscribeCount_resume (Fulfilled (JFun h))
                 (fst (subscribeCount rt)) (snd (subscribeCount rt))))
         (snd (subscribeCount_resume (Fulfilled (JFun h))
                 (fst (subscribeCount rt)) (snd (subscribeCount rt))))))
    = released rt ++ [h].
Proof.
  intros h rt. split; [|split].
  - eexists. split; [reflexivity|]. split; reflexivity.
  - eexists. split; [reflexivity|]. split; reflexivity.
  - reflexivity.
Qed.

(** X16: for a record the ledger delivers in wire form, the owner's
    [toJSON] decides the card: the card made from the parsed record is
    marked "Mine" exactly when the owner codec's JSON is the viewer's
    address string, and the owner and year lines show the codecs' JSON. *)
Theorem ledger_owner_decides_mine :
  forall (address : string) (d p y o : Codec),
    exists c card,
      parseCourse (MkCourse (JCodec d) (JCodec p) (JCodec y) (JCodec o)) = Ok c /\
      CourseCard address c = Ok card /\
      (mine card = true <-> toJSON o = PStr address) /\
      (actions card = [SetPriceButton; TransferButton] <-> toJSON o = PStr address) /\
      ownerText card = JPlain (toJSON o) /\
      yearText card = JPlain (toJSON y).
Proof.
  intros address d p y o. eexists. eexists.
  split; [reflexivity|]. split; [reflexivity|].
  cbn -[strict_eq_str BuyCourse.render].
  assert (Hiff : strict_eq_str (JPlain (toJSON o)) address = true
                 <-> toJSON o = PStr address).
  { rewrite strict_eq_str_true. unfold JStr.
    split; [intros [= ->]; reflexivity|intros ->; reflexivity]. }
  split; [exact Hiff|]. split; [|split; reflexivity].
  rewrite <- Hiff.
  destruct (strict_eq_str (JPlain (toJSON o)) address); [split; reflexivity|].
  unfold BuyCourse.render.
  match goal with
  | |- context [if ?b then _ else _] => destruct b; split; discriminate
  end.
Qed.

(** X17: the Buy Course dialog submits what the card shows.  Whenever a
    rendered card carries the Buy Course button, the viewer is not the
    owner, and the descriptor of the dialog is buyCourse with the record's
    wire [dna], whose JSON is the DNA line of the card, and with the very
    price printed on the card. *)
Theorem buy_submits_displayed_price :
  forall (address : string) (course : Course) (card : Card) (dlg : Dialog),
    CourseCard address course = Ok card ->
    In BuyCourseButton (actions card) ->
    owner course <> JStr address /\
    callable (BuyCourse.attrs course dlg) = "buyCourse" /\
    inputParams (BuyCourse.attrs course dlg) = [dna course; priceText card] /\
    exists c, dna course = JCodec c /\ displayDna card = JPlain (toJSON c).
Proof.
  intros address course card dlg H Hin.
  apply CourseCard_inv in H as (c & Hdna & ->). cbn in *.
  destruct (strict_eq_str (owner course) address) eqn:Ho.
  { destruct Hin as [[=]|[[=]|[]]]. }
  unfold BuyCourse.render in Hin.
  destruct (truthy (price course)) eqn:Hp; cbn in Hin; [|destruct Hin].
  split.
  { intros Heq. apply strict_eq_str_true in Heq. congruence. }
  split; [reflexivity|]. split.
  - f_equal. f_equal. unfold js_or.
    destruct (price course) as [|[| | |]| |]; cbn in *;
      try discriminate; try reflexivity; rewrite Hp; reflexivity.
  - exists c. split; [exact Hdna|reflexivity].
Qed.

Lemma buy_submits_displayed_price_witness :
  exists card,
    CourseCard "5Bob" Sample.course1 = Ok card /\
    inputParams (BuyCourse.attrs Sample.course1 closed_dialog)
    = [Sample.dna1; priceText card].
Proof.
  eexists. split; [reflexivity|].
  apply (buy_submits_displayed_price "5Bob" Sample.course1 _ closed_dialog eq_refl).
  left. reflexivity.
Defined.
